(** * travelingo: the Travel REST service (main.go with JWT-protected writes)

    A shallow embedding of the application code: the repository over the
    document collection, the request handlers, the [response] helper and the
    token functions.  Code that belongs to other packages (the MongoDB
    driver, the JWT library, the fiber middleware, the clock and the process
    environment) is either taken as a parameter or modelled as stated at its
    definition. *)

From stdpp Require Import base strings list gmap option.
From Stdlib Require Import ZArith Lia Ascii DecimalString DecimalZ.
From Stdlib.Strings Require Import Byte.

Open Scope Z_scope.
Open Scope string_scope.

(** ** Go values *)

(** A Go [error] value, identified by its message; [option error] is the
    interface type, [None] being [nil]. *)
Record error := errors_New { Error : string }.

#[global] Instance error_eq_dec : EqDecision error.
Proof. solve_decision. Defined.

(** A call either returns or panics. *)
Inductive outcome (A : Type) :=
| Returns (a : A)
| Panics (msg : string).
Arguments Returns {A} a.
Arguments Panics {A} msg.

Definition nil_dereference : string :=
  "runtime error: invalid memory address or nil pointer dereference".


(** ** bson/primitive: ObjectID

    The identifier type of the driver and its hexadecimal form
    ([ObjectIDFromHex], [Hex], over encoding/hex): library code, modelled by
    what it computes. *)

#[global] Instance byte_eq_dec : EqDecision byte := Byte.byte_eq_dec.

(** [primitive.ObjectID] is [[12]byte]; a value of the model is the list of
    its bytes, and the values the program handles have length 12. *)
Definition primitive_ObjectID := list byte.

Definition NilObjectID : primitive_ObjectID := replicate 12 x00.

Definition ErrLength : error := errors_New "encoding/hex: odd length hex string".
(** The message of the library also prints the code point of the byte. *)
Definition InvalidByteError (c : ascii) : error :=
  errors_New ("encoding/hex: invalid byte: " +:+ String c "").
Definition ErrInvalidHex : error :=
  errors_New "the provided hex string is not a valid ObjectID".

(** encoding/hex: the value of a hexadecimal digit, either case. *)
Definition fromHexChar (c : ascii) : option N :=
  let n := N_of_ascii c in
  if ((48 <=? n) && (n <=? 57))%N then Some (n - 48)%N
  else if ((97 <=? n) && (n <=? 102))%N then Some (n - 87)%N
  else if ((65 <=? n) && (n <=? 70))%N then Some (n - 55)%N
  else None.

Definition hextable (n : N) : ascii :=
  ascii_of_N (if (n <? 10)%N then n + 48 else n + 87)%N.

Definition byte_of_nibbles (a b : N) : byte :=
  default x00 (Byte.of_N (16 * a + b)).

Fixpoint hex_DecodeString (s : string) : list byte * option error :=
  match s with
  | "" => ([], None)
  | String p "" =>
      match fromHexChar p with
      | None => ([], Some (InvalidByteError p))
      | Some _ => ([], Some ErrLength)
      end
  | String p (String q r) =>
      match fromHexChar p, fromHexChar q with
      | None, _ => ([], Some (InvalidByteError p))
      | Some _, None => ([], Some (InvalidByteError q))
      | Some a, Some b =>
          let '(bs, err) := hex_DecodeString r in (byte_of_nibbles a b :: bs, err)
      end
  end.

Fixpoint hex_EncodeToString (bs : list byte) : string :=
  match bs with
  | [] => ""
  | b :: r =>
      let n := Byte.to_N b in
      String (hextable (n / 16)) (String (hextable (n mod 16)) (hex_EncodeToString r))
  end.

(** [primitive.ObjectIDFromHex]: decode, then require twelve bytes. *)
Definition ObjectIDFromHex (s : string) : primitive_ObjectID * option error :=
  match hex_DecodeString s with
  | (_, Some err) => (NilObjectID, Some err)
  | (b, None) =>
      if decide (length b = 12%nat) then (b, None) else (NilObjectID, Some ErrInvalidHex)
  end.

(** [ObjectID.Hex]. *)
Definition Hex (oid : primitive_ObjectID) : string := hex_EncodeToString oid.

(** ** The Travel record *)

Record Travel := {
  ObjectID : primitive_ObjectID;   (* `json:"id" bson:"_id"` *)
  Name : string;
  Photo : string;
  Done : bool;
}.

#[global] Instance Travel_eq_dec : EqDecision Travel.
Proof. solve_decision. Defined.

Definition Travels := list Travel.

(** [travel.ObjectID = oid]: assignment to the identifier field. *)
Definition set_ObjectID (oid : primitive_ObjectID) (t : Travel) : Travel :=
  {| ObjectID := oid; Name := Name t; Photo := Photo t; Done := Done t |}.

(** [var travel Travel]: the zero value. *)
Definition zero_Travel : Travel :=
  {| ObjectID := NilObjectID; Name := ""; Photo := ""; Done := false |}.

(** ** context *)

Inductive Context :=
| context_Background
| context_WithTimeout (parent : Context) (timeout : Z).

Definition time_Second : Z := 1000000000.

(** ** The document collection (mongo-driver) *)

Definition ErrNoDocuments : error := errors_New "mongo: no documents in result".
(** The server's message also names the collection, the index and the key. *)
Definition ErrDuplicateKey : error := errors_New "E11000 duplicate key error".
Definition ErrImmutableID : error :=
  errors_New "the (immutable) field '_id' was found to have been altered".

(** [DBRepository] with what its handles stand for: the documents of the
    collection in their natural order, the condition of the connection, and
    the process-wide source of [primitive.NewObjectID]. *)
Record DBRepository := {
  Collection : list Travel;
  unreachable : option error;   (* what every round trip fails with, if the
                                   server cannot be reached in time *)
  objectIDs : nat -> primitive_ObjectID;  (* the values NewObjectID returns, in order *)
  objectIDCounter : nat;        (* how many of them have been handed out *)
}.

Definition with_Collection (docs : list Travel) (d : DBRepository) : DBRepository :=
  {| Collection := docs; unreachable := unreachable d;
     objectIDs := objectIDs d; objectIDCounter := objectIDCounter d |}.

(** [primitive.NewObjectID()]. *)
Definition NewObjectID (d : DBRepository) : primitive_ObjectID * DBRepository :=
  (objectIDs d (objectIDCounter d),
   {| Collection := Collection d; unreachable := unreachable d;
      objectIDs := objectIDs d; objectIDCounter := S (objectIDCounter d) |}).

(** The filter [bson.M{"_id": oid}]. *)
Definition has_id (oid : primitive_ObjectID) (t : Travel) : bool :=
  bool_decide (ObjectID t = oid).

Fixpoint replace_first (oid : primitive_ObjectID) (new : Travel) (docs : list Travel) : list Travel :=
  match docs with
  | [] => []
  | t :: r => if has_id oid t then new :: r else t :: replace_first oid new r
  end.

Fixpoint delete_first (oid : primitive_ObjectID) (docs : list Travel) : list Travel :=
  match docs with
  | [] => []
  | t :: r => if has_id oid t then r else t :: delete_first oid r
  end.

(** No document of [docs] has the identifier [oid]. *)
Definition absent (oid : primitive_ObjectID) (docs : list Travel) : Prop :=
  Forall (fun t => ObjectID t <> oid) docs.

(** Modelled from the spec: the driver's [Collection.Find] with the empty
    filter and the cursor loop over it ("returns the ordered sequence of all
    records"; an unreachable server is the "I/O condition"). *)
Definition Collection_Find (d : DBRepository) : list Travel * option error :=
  match unreachable d with
  | Some e => ([], Some e)
  | None => (Collection d, None)
  end.

(** Modelled from the spec: the driver's [Collection.FindOne] by identifier
    followed by [Decode] ("returns the matching record or fails with a
    NotFound condition if none decodes"); the error is the driver's
    [mongo.ErrNoDocuments]. *)
Definition Collection_FindOne (d : DBRepository) (oid : primitive_ObjectID) : Travel * option error :=
  match unreachable d with
  | Some e => (zero_Travel, Some e)
  | None =>
      match List.find (has_id oid) (Collection d) with
      | Some t => (t, None)
      | None => (zero_Travel, Some ErrNoDocuments)
      end
  end.

(** Modelled from the spec: the driver's [Collection.InsertOne] ("persists
    it ... fails with an I/O condition on write failure"; "[id] is unique",
    so a document whose identifier is already stored is refused). *)
Definition Collection_InsertOne (d : DBRepository) (t : Travel) : DBRepository * option error :=
  match unreachable d with
  | Some e => (d, Some e)
  | None =>
      if existsb (has_id (ObjectID t)) (Collection d) then (d, Some ErrDuplicateKey)
      else (with_Collection (Collection d ++ [t]) d, None)
  end.

(** Modelled from the spec: the driver's [Collection.ReplaceOne] by
    identifier, no upsert ("replaces the entire stored document whose
    identifier matches"; "if no document matches, this is not surfaced as an
    error"; the identifier is "immutable"). *)
Definition Collection_ReplaceOne (d : DBRepository) (oid : primitive_ObjectID) (new : Travel)
  : DBRepository * option error :=
  match unreachable d with
  | Some e => (d, Some e)
  | None =>
      if existsb (has_id oid) (Collection d) then
        if decide (ObjectID new = oid)
        then (with_Collection (replace_first oid new (Collection d)) d, None)
        else (d, Some ErrImmutableID)
      else (d, None)
  end.

(** Modelled from the spec: the driver's [Collection.DeleteOne] by identifier
    ("removes the matching document if present; absence of a match is not
    reported as an error"). *)
Definition Collection_DeleteOne (d : DBRepository) (oid : primitive_ObjectID) : DBRepository * option error :=
  match unreachable d with
  | Some e => (d, Some e)
  | None => (with_Collection (delete_first oid (Collection d)) d, None)
  end.

(** ** Repository *)

(** The [Repository] interface, as far as the handlers use it.  A method
    takes the state of the repository and returns the new one; a method that
    writes through its [*Travel] argument also returns the record the caller
    holds afterwards. *)
Class Repository (R : Type) := {
  findAll : Context -> R -> (option Travels * option error) * R;
  findOne : Context -> string -> R -> (option Travel * option error) * R;
  insertOne : Context -> Travel -> R -> (Travel * option error) * R;
  updateOne : Context -> string -> Travel -> R -> (Travel * option error) * R;
  deleteOne : Context -> string -> R -> option error * R;
}.

Definition DBRepository_findAll (ctx : Context) (d : DBRepository)
  : (option Travels * option error) * DBRepository :=
  match Collection_Find d with
  | (_, Some err) => ((None, Some err), d)
  | (travels, None) => ((Some travels, None), d)
  end.

Definition DBRepository_findOne (ctx : Context) (id : string) (d : DBRepository)
  : (option Travel * option error) * DBRepository :=
  match ObjectIDFromHex id with
  | (_, Some err) => ((None, Some err), d)
  | (objectId, None) =>
      match Collection_FindOne d objectId with
      | (_, Some err) => ((None, Some err), d)
      | (travel, None) => ((Some travel, None), d)
      end
  end.

Definition DBRepository_insertOne (ctx : Context) (travel : Travel) (d : DBRepository)
  : (Travel * option error) * DBRepository :=
  let '(oid, d) := NewObjectID d in
  let travel := set_ObjectID oid travel in
  match Collection_InsertOne d travel with
  | (d, Some err) => ((travel, Some err), d)
  | (d, None) => ((travel, None), d)
  end.

Definition DBRepository_updateOne (ctx : Context) (id : string) (travel : Travel)
  (d : DBRepository) : (Travel * option error) * DBRepository :=
  let '(oid, _) := ObjectIDFromHex id in
  let travel := set_ObjectID oid travel in
  match Collection_ReplaceOne d (ObjectID travel) travel with
  | (d, Some err) => ((travel, Some err), d)
  | (d, None) => ((travel, None), d)
  end.

Definition DBRepository_deleteOne (ctx : Context) (id : string) (d : DBRepository)
  : option error * DBRepository :=
  match ObjectIDFromHex id with
  | (_, Some err) => (Some err, d)
  | (objectId, None) =>
      match Collection_DeleteOne d objectId with
      | (d, Some err) => (Some err, d)
      | (d, None) => (None, d)
      end
  end.

#[global] Instance DBRepository_Repository : Repository DBRepository := {
  findAll := DBRepository_findAll;
  findOne := DBRepository_findOne;
  insertOne := DBRepository_insertOne;
  updateOne := DBRepository_updateOne;
  deleteOne := DBRepository_deleteOne;
}.

(** ** fiber: the request context *)

Definition StatusOK : Z := 200.
Definition StatusNoContent : Z := 204.
Definition StatusBadRequest : Z := 400.
Definition StatusUnauthorized : Z := 401.
Definition StatusUnprocessableEntity : Z := 422.
Definition StatusInternalServerError : Z := 500.

(** What a handler passes as [data interface{}]; the interface value itself
    is an [option Data], [None] being [nil].  A nil pointer stored in the
    interface is not the nil interface. *)
Inductive Data :=
| TravelValue (t : Travel)
| TravelPtr (p : option Travel)
| TravelsPtr (p : option Travels).

(** A value of a [fiber.Map]. *)
Inductive Value :=
| VNil
| VBool (b : bool)
| VString (s : string).

(** What [c.JSON] is given. *)
Inductive Body :=
| JSONStringMap (m : gmap string string)   (* map[string]string *)
| JSONMap (m : gmap string Value)          (* fiber.Map *)
| JSONData (d : Data).

(** [*fiber.Ctx]: the request as the handlers read it and the response they
    build.  [parsedBody] is what [c.BodyParser(&travel)] leaves in [travel]
    and the error it returns. *)
Record Ctx := {
  params : gmap string string;
  headers : gmap string string;
  parsedBody : Travel * option error;
  status : Z;
  body : option Body;
}.

Definition Params (c : Ctx) (key : string) : string := default "" (params c !! key).
Definition Get (c : Ctx) (key : string) : string := default "" (headers c !! key).
Definition BodyParser (c : Ctx) : Travel * option error := parsedBody c.

Definition Status (code : Z) (c : Ctx) : Ctx :=
  {| params := params c; headers := headers c; parsedBody := parsedBody c;
     status := code; body := body c |}.

(** [c.JSON(v)]; marshalling these payloads does not fail, so the error a
    handler hands back to fiber is nil and is left out of its result. *)
Definition JSON (v : Body) (c : Ctx) : Ctx :=
  {| params := params c; headers := headers c; parsedBody := parsedBody c;
     status := status c; body := Some v |}.

(** A request as fiber hands it to the first handler. *)
Definition request (prm hdr : gmap string string) (parsed : Travel * option error) : Ctx :=
  {| params := prm; headers := hdr; parsedBody := parsed; status := StatusOK; body := None |}.

(** ** response *)

Definition response (data : option Data) (httpStatus : Z) (err : option error) (c : Ctx) : Ctx :=
  match err with
  | Some err => JSON (JSONStringMap {[ "error" := Error err ]}) (Status StatusInternalServerError c)
  | None =>
      match data with
      | Some data => JSON (JSONData data) (Status httpStatus c)
      | None => Status httpStatus c
      end
  end.

(** ** Tokens *)

(** A value stored in [jwt.MapClaims].  A [float64] is represented by its
    integer part, which is all the program reads of it ([int64(x)]). *)
Inductive ClaimValue :=
| ClaimInt64 (n : Z)
| ClaimFloat64 (trunc : Z)
| ClaimString (s : string).

Inductive jwt_Claims :=
| MapClaims (m : gmap string ClaimValue)
| OtherClaims.

(** [jwt.Token], the fields the program reads. *)
Record Token := {
  Claims : jwt_Claims;
  Valid : bool;
}.

Definition Keyfunc := Token -> string * option error.

(** The configuration [JWTProtected] builds for the middleware. *)
Record Config := {
  SigningKey : string;
  ContextKey : string;
  ErrorHandler : Ctx -> error -> Ctx;
}.

(** The library code the token functions call, as parameters:
    [jwt.Parse(tokenString, keyFunc)], [jwt.NewWithClaims(HS256,
    claims).SignedString(key)], and the check the middleware of
    [jwtMiddleware.New(config)] makes on a request ([None]: the request goes
    on to the next handler; [Some err]: [config.ErrorHandler] is called with
    [err]). *)
Record Libraries := {
  jwt_Parse : string -> Keyfunc -> option Token * option error;
  jwt_SignedString : gmap string ClaimValue -> string -> string * option error;
  jwtMiddleware_check : Config -> Ctx -> option error;
}.

(** The environment variables and the clock the program reads.
    [EXPIRE_MINUTES_COUNT] is the value of
    [strconv.Atoi(os.Getenv("JWT_SECRET_KEY_EXPIRE_MINUTES_COUNT"))], whose
    error the program drops. *)
Record Env := {
  JWT_SECRET_KEY : string;
  EXPIRE_MINUTES_COUNT : Z;
}.


(** [time.Time] as nanoseconds since the epoch. *)
Definition Time := Z.
Definition Unix (t : Time) : Z := t / time_Second.


Record TokenMetadata := {
  Expires : Z;
}.

(** [strings.Split(s, sep)] for a separator of one character. *)
Fixpoint Split (s : string) (sep : ascii) : list string :=
  match s with
  | "" => [""]
  | String ch r =>
      if decide (ch = sep) then "" :: Split r sep
      else match Split r sep with
           | [] => [String ch ""]
           | x :: xs => String ch x :: xs
           end
  end.

Definition extractToken (c : Ctx) : string :=
  let bearToken := Get c "Authorization" in
  let onlyToken := Split bearToken " "%char in
  match onlyToken with
  | [_; t] => t
  | _ => ""
  end.

Definition jwtKeyFunc (env : Env) : Keyfunc :=
  fun token => (JWT_SECRET_KEY env, None).

Definition verifyToken (lib : Libraries) (env : Env) (c : Ctx) : option Token * option error :=
  let tokenString := extractToken c in
  match jwt_Parse lib tokenString (jwtKeyFunc env) with
  | (_, Some err) => (None, Some err)
  | (token, None) => (token, None)
  end.

Definition ExtractTokenMetadata (lib : Libraries) (env : Env) (c : Ctx)
  : outcome (option TokenMetadata * option error) :=
  match verifyToken lib env c with
  | (_, Some err) => Returns (None, Some err)
  | (None, None) => Panics nil_dereference
  | (Some token, None as err) =>
      match Claims token with
      | MapClaims claims =>
          if Valid token then
            match claims !! "exp" with
            | Some (ClaimFloat64 expires) => Returns (Some {| Expires := expires |}, None)
            | _ => Panics "interface conversion: interface {} is not float64"
            end
          else Returns (None, err)
      | OtherClaims => Returns (None, err)
      end
  end.



Definition jwtError (c : Ctx) (err : error) : Ctx :=
  if decide (Error err = "Missing or malformed JWT") then
    JSON (JSONMap {[ "error" := VBool true; "msg" := VString (Error err) ]})
         (Status StatusBadRequest c)
  else
    JSON (JSONMap {[ "error" := VBool true; "msg" := VString (Error err) ]})
         (Status StatusUnauthorized c).

Definition JWTProtected_config (env : Env) : Config :=
  {| SigningKey := JWT_SECRET_KEY env; ContextKey := "jwt"; ErrorHandler := jwtError |}.

(** [JWTProtected()] in front of a handler: the middleware either hands the
    request on or answers through the configured error handler. *)
Definition JWTProtected {A : Type} (lib : Libraries) (env : Env)
  (next : A -> Ctx -> outcome (Ctx * A)) (a : A) (c : Ctx) : outcome (Ctx * A) :=
  let config := JWTProtected_config env in
  match jwtMiddleware_check lib config c with
  | Some err => Returns (ErrorHandler config c err, a)
  | None => next a c
  end.

(** ** The service *)

Definition expired_message : string := "unauthorized, check expiration time of your token".
Definition no_id_message : string := "id is not defined".

Section Service.
Context {R : Type} `{Repository R}.
Variable lib : Libraries.
Variable env : Env.

(** The handlers take the repository of [appService] and return it with the
    response; [now] is the reading of [time.Now()]. *)


Definition getTravel (a : R) (c : Ctx) : outcome (Ctx * R) :=
  let id := Params c "id" in
  if decide (id = "") then
    Returns (response None StatusUnprocessableEntity (Some (errors_New no_id_message)) c, a)
  else
    let ctx := context_WithTimeout context_Background (20 * time_Second) in
    let '((travel, err), a) := findOne ctx id a in
    Returns (response (Some (TravelPtr travel)) StatusOK err c, a).

Definition createTravel (now : Time) (a : R) (c : Ctx) : outcome (Ctx * R) :=
  let now := Unix now in
  match ExtractTokenMetadata lib env c with
  | Panics msg => Panics msg
  | Returns (_, Some err) =>
      Returns (response None StatusInternalServerError (Some err) c, a)
  | Returns (None, None) => Panics nil_dereference
  | Returns (Some claims, None) =>
      let expires := Expires claims in
      if decide (now > expires) then
        Returns (response None StatusUnauthorized (Some (errors_New expired_message)) c, a)
      else
        match BodyParser c with
        | (travel, Some err) =>
            Returns (response (Some (TravelValue travel)) StatusUnprocessableEntity (Some err) c, a)
        | (travel, None) =>
            let ctx := context_WithTimeout context_Background (20 * time_Second) in
            let '((travel, err), a) := insertOne ctx travel a in
            Returns (response (Some (TravelValue travel)) StatusOK err c, a)
        end
  end.

Definition updateTravel (now : Time) (a : R) (c : Ctx) : outcome (Ctx * R) :=
  let now := Unix now in
  match ExtractTokenMetadata lib env c with
  | Panics msg => Panics msg
  | Returns (_, Some err) =>
      Returns (response None StatusInternalServerError (Some err) c, a)
  | Returns (None, None) => Panics nil_dereference
  | Returns (Some claims, None) =>
      let expires := Expires claims in
      if decide (now > expires) then
        Returns (response None StatusUnauthorized (Some (errors_New expired_message)) c, a)
      else
        let id := Params c "id" in
        if decide (id = "") then
          Returns (response None StatusUnprocessableEntity (Some (errors_New no_id_message)) c, a)
        else
          match BodyParser c with
          | (travel, Some err) =>
              Returns (response (Some (TravelValue travel)) StatusUnprocessableEntity (Some err) c, a)
          | (travel, None) =>
              let ctx := context_WithTimeout context_Background (20 * time_Second) in
              let '((_, err), a) := updateOne ctx id travel a in
              Returns (response None StatusNoContent err c, a)
          end
  end.

Definition deleteTravel (now : Time) (a : R) (c : Ctx) : outcome (Ctx * R) :=
  let now := Unix now in
  match ExtractTokenMetadata lib env c with
  | Panics msg => Panics msg
  | Returns (_, Some err) =>
      Returns (response None StatusInternalServerError (Some err) c, a)
  | Returns (None, None) => Panics nil_dereference
  | Returns (Some claims, None) =>
      let expires := Expires claims in
      if decide (now > expires) then
        Returns (response None StatusUnauthorized (Some (errors_New expired_message)) c, a)
      else
        let id := Params c "id" in
        if decide (id = "") then
          Returns (response None StatusUnprocessableEntity (Some (errors_New no_id_message)) c, a)
        else
          let ctx := context_WithTimeout context_Background (20 * time_Second) in
          let '(err, a) := deleteOne ctx id a in
          Returns (response None StatusNoContent err c, a)
  end.

(** The private endpoints of [Routes]: the middleware, then the handler. *)
Definition postTravels (now : Time) : R -> Ctx -> outcome (Ctx * R) :=
  JWTProtected lib env (createTravel now).
Definition putTravel (now : Time) : R -> Ctx -> outcome (Ctx * R) :=
  JWTProtected lib env (updateTravel now).
Definition deleteTravelRoute (now : Time) : R -> Ctx -> outcome (Ctx * R) :=
  JWTProtected lib env (deleteTravel now).

End Service.

(** The status and the body of a handler's answer. *)
Definition answer {A : Type} (o : outcome (Ctx * A)) : option (Z * option Body) :=
  match o with
  | Returns (c, _) => Some (status c, body c)
  | Panics _ => None
  end.

(** The answer [response] gives for an error with this message. *)
Definition error_answer (msg : string) : option (Z * option Body) :=
  Some (500, Some (JSONStringMap {[ "error" := msg ]})).

(** The context after [response] has answered for an error with this message. *)
Definition error_response (msg : string) (c : Ctx) : Ctx :=
  JSON (JSONStringMap {[ "error" := msg ]}) (Status 500 c).

(** ** Stand-ins for the libraries and a small store

    Used to run the handlers on concrete requests.  The stand-in for the JWT
    library writes a token as [HS256.<exp>.<key>]: the last segment plays the
    signature, and parsing checks the segments, the signature and the
    expiration against the library's clock, an expiration of zero counting
    as not set. *)
Module Double.

Definition print_Z (z : Z) : string := NilZero.string_of_int (Z.to_int z).
Definition parse_Z (s : string) : option Z :=
  option_map Z.of_int (NilZero.int_of_string s).

Definition SignedString (claims : gmap string ClaimValue) (key : string)
  : string * option error :=
  match claims !! "exp" with
  | Some (ClaimInt64 e) => ("HS256." +:+ print_Z e +:+ "." +:+ key, None)
  | _ => ("HS256.." +:+ key, None)
  end.

(** [clock] is the library's reading of the time, [None] for a library
    that leaves the expiration to its caller. *)
Definition Parse (clock : option Z) (tokenString : string) (keyFunc : Keyfunc)
  : option Token * option error :=
  match Split tokenString "."%char with
  | [_; payload; signature] =>
      let claims : gmap string ClaimValue :=
        match parse_Z payload with
        | Some e => {[ "exp" := ClaimFloat64 e ]}
        | None => ∅
        end in
      let token := {| Claims := MapClaims claims; Valid := false |} in
      let '(key, _) := keyFunc token in
      if decide (signature = key) then
        match parse_Z payload, clock with
        | Some e, Some clock =>
            if decide (e <> 0 /\ clock > e)
            then (Some token, Some (errors_New "Token is expired"))
            else (Some {| Claims := MapClaims claims; Valid := true |}, None)
        | _, _ => (Some {| Claims := MapClaims claims; Valid := true |}, None)
        end
      else (Some token, Some (errors_New "signature is invalid"))
  | _ => (None, Some (errors_New "token contains an invalid number of segments"))
  end.

(** The middleware's check: the header must carry the scheme [Bearer] and
    something after it, which must parse. *)
Definition check (clock : option Z) (config : Config) (c : Ctx) : option error :=
  let auth := Get c "Authorization" in
  if decide ((7 < String.length auth)%nat /\ String.substring 0 6 auth = "Bearer") then
    match Parse clock (String.substring 7 (String.length auth - 7) auth)
                (fun _ => (SigningKey config, None)) with
    | (_, Some err) => Some err
    | (Some token, None) => if Valid token then None else Some (errors_New "Invalid or expired JWT")
    | (None, None) => Some (errors_New "Invalid or expired JWT")
    end
  else Some (errors_New "Missing or malformed JWT").

Definition libraries (clock : option Z) : Libraries :=
  {| jwt_Parse := Parse clock; jwt_SignedString := SignedString;
     jwtMiddleware_check := check clock |}.


Definition env (minutes : Z) : Env :=
  {| JWT_SECRET_KEY := "secret"; EXPIRE_MINUTES_COUNT := minutes |}.

Definition oid (n : N) : primitive_ObjectID := (replicate 11 x00 ++ [default x00 (Byte.of_N n)])%list.

Definition paris : Travel :=
  {| ObjectID := oid 1; Name := "Paris"; Photo := "paris.png"; Done := true |}.
Definition oslo : Travel :=
  {| ObjectID := oid 2; Name := "Oslo"; Photo := "oslo.png"; Done := false |}.
Definition lima : Travel :=
  {| ObjectID := oid 7; Name := "Lima"; Photo := "lima.png"; Done := false |}.

Definition store : DBRepository :=
  {| Collection := [paris; oslo]; unreachable := None;
     objectIDs := fun n => oid (N.of_nat n + 16); objectIDCounter := 0 |}.

Definition bearer (token : string) : gmap string string :=
  {[ "Authorization" := "Bearer " +:+ token ]}.

End Double.

(** ** The rest of the service

    The token endpoint and the handlers of main.go, the version of the
    service without tokens. *)


Module MainGo.
Section Service.
Context {R : Type} `{Repository R}.

Definition createTravel (a : R) (c : Ctx) : outcome (Ctx * R) :=
  match BodyParser c with
  | (travel, Some err) =>
      Returns (response (Some (TravelValue travel)) StatusUnprocessableEntity (Some err) c, a)
  | (travel, None) =>
      let ctx := context_WithTimeout context_Background (20 * time_Second) in
      let '((travel, err), a) := insertOne ctx travel a in
      Returns (response (Some (TravelValue travel)) StatusOK err c, a)
  end.

Definition updateTravel (a : R) (c : Ctx) : outcome (Ctx * R) :=
  let id := Params c "id" in
  if decide (id = "") then
    Returns (response None StatusUnprocessableEntity (Some (errors_New no_id_message)) c, a)
  else
    match BodyParser c with
    | (travel, Some err) =>
        Returns (response (Some (TravelValue travel)) StatusUnprocessableEntity (Some err) c, a)
    | (travel, None) =>
        let ctx := context_WithTimeout context_Background (20 * time_Second) in
        let '((_, err), a) := updateOne ctx id travel a in
        Returns (response None StatusNoContent err c, a)
    end.

Definition deleteTravel (a : R) (c : Ctx) : outcome (Ctx * R) :=
  let id := Params c "id" in
  if decide (id = "") then
    Returns (response None StatusUnprocessableEntity (Some (errors_New no_id_message)) c, a)
  else
    let ctx := context_WithTimeout context_Background (20 * time_Second) in
    let '(err, a) := deleteOne ctx id a in
    Returns (response None StatusNoContent err c, a).

End Service.
End MainGo.

(** The identifiers of the stored documents are pairwise distinct. *)
Definition unique_ids (docs : list Travel) : Prop := NoDup (ObjectID <$> docs).

(** The repository a handler leaves behind, if it returns. *)
Definition repository_after {A : Type} (o : outcome (Ctx * A)) : option A :=
  match o with
  | Returns (_, a) => Some a
  | Panics _ => None
  end.

(** [strings.Join(parts, sep)] for a separator of one character. *)
Fixpoint Join (parts : list string) (sep : ascii) : string :=
  match parts with
  | [] => ""
  | [x] => x
  | x :: r => x +:+ String sep (Join r sep)
  end.

(** * Properties *)

(** ** The response helper *)

Lemma response_error_shape data httpStatus err c :
  response data httpStatus (Some err) c =
  JSON (JSONStringMap {[ "error" := Error err ]}) (Status StatusInternalServerError c).
Proof. reflexivity. Qed.

(** C3: with a non-nil error [response] answers 500 with the body
    [{"error": <message>}] whatever [httpStatus] (and [data]) the caller
    passed; with a nil error the status is the [httpStatus] passed. *)
Theorem response_error_is_500 (data : option Data) (httpStatus : Z) (err : error) (c : Ctx) :
  status (response data httpStatus (Some err) c) = 500
  /\ body (response data httpStatus (Some err) c)
     = Some (JSONStringMap {[ "error" := Error err ]})
  /\ (forall data' httpStatus',
        response data' httpStatus' (Some err) c = response data httpStatus (Some err) c)
  /\ status (response data StatusUnprocessableEntity (Some err) c) = 500
  /\ status (response data StatusUnauthorized (Some err) c) = 500
  /\ status (response data httpStatus None c) = httpStatus.
Proof.
  repeat split; try reflexivity.
  destruct data; reflexivity.
Qed.

(** ** Handlers: the empty identifier and the expired token *)

Section ServiceFacts.
Context {R : Type} `{Repository R}.
Variable lib : Libraries.
Variable env : Env.




Lemma handlers_expired now (a : R) c claims :
  ExtractTokenMetadata lib env c = Returns (Some claims, None) ->
  Expires claims < Unix now ->
  let r := Returns (response None 401 (Some (errors_New expired_message)) c, a) in
  createTravel lib env now a c = r
  /\ updateTravel lib env now a c = r
  /\ deleteTravel lib env now a c = r.
Proof.
  intros Hm Hexp. unfold createTravel, updateTravel, deleteTravel. rewrite Hm.
  destruct (decide (Unix now > Expires claims)); [| lia]. auto.
Qed.

Lemma protected_passes {A} (next : A -> Ctx -> outcome (Ctx * A)) a c :
  jwtMiddleware_check lib (JWTProtected_config env) c = None ->
  JWTProtected lib env next a c = next a c.
Proof. intros Hc. unfold JWTProtected. rewrite Hc. reflexivity. Qed.

End ServiceFacts.



(** C2: when the token is accepted and its expiration lies before the
    handler's reading of the clock, the three protected handlers pass 401 to
    [response] together with the error, and the answer is 500 with the body
    [{"error": "unauthorized, check expiration time of your token"}]; the
    repository is not called.  The same holds of the routes when the
    middleware lets the request through. *)
Theorem expired_token_answer {R : Type} `{Repository R} (lib : Libraries) (env : Env)
  (now : Time) (a : R) (c : Ctx) (claims : TokenMetadata) :
  ExtractTokenMetadata lib env c = Returns (Some claims, None) ->
  Expires claims < Unix now ->
  (createTravel lib env now a c = Returns (error_response expired_message c, a)
   /\ updateTravel lib env now a c = Returns (error_response expired_message c, a)
   /\ deleteTravel lib env now a c = Returns (error_response expired_message c, a))
  /\ status (error_response expired_message c) = 500
  /\ (jwtMiddleware_check lib (JWTProtected_config env) c = None ->
      answer (postTravels lib env now a c) = error_answer expired_message
      /\ answer (putTravel lib env now a c) = error_answer expired_message
      /\ answer (deleteTravelRoute lib env now a c) = error_answer expired_message).
Proof.
  intros Hm Hexp.
  destruct (handlers_expired lib env now a c claims Hm Hexp) as (Hc & Hu & Hd).
  split; [auto |]. split; [reflexivity |].
  intros Hpass. unfold postTravels, putTravel, deleteTravelRoute.
  rewrite !protected_passes by done. rewrite Hc, Hu, Hd. auto.
Qed.

Lemma expired_token_answer_at_request :
  answer (postTravels (Double.libraries (Some 1000)) (Double.env 5) (1000 * time_Second)
            Double.store (request ∅ (Double.bearer "HS256.0.secret") (Double.lima, None)))
  = Some (500, Some (JSONStringMap {[ "error" := expired_message ]})).
Proof.
  refine (proj1 (proj2 (proj2 (expired_token_answer (Double.libraries (Some 1000)) (Double.env 5)
            (1000 * time_Second) Double.store
            (request ∅ (Double.bearer "HS256.0.secret") (Double.lima, None))
            {| Expires := 0 |} _ _)) _)).
  - vm_compute. reflexivity.
  - vm_compute. reflexivity.
  - vm_compute. reflexivity.
Defined.

(** ** Token metadata *)

Lemma verifyToken_parsed lib env c token :
  jwt_Parse lib (extractToken c) (jwtKeyFunc env) = (token, None) ->
  verifyToken lib env c = (token, None).
Proof. intros Hp. unfold verifyToken. rewrite Hp. reflexivity. Qed.





(** With a library whose [Parse] returns a nil error only together with a
    valid token of map claims carrying a numeric ["exp"], the fall-through
    is never taken: a nil error comes with metadata. *)
Lemma ExtractTokenMetadata_nil_error lib env c meta :
  (forall s token, jwt_Parse lib s (jwtKeyFunc env) = (token, None) ->
     exists claims e, token = Some {| Claims := MapClaims claims; Valid := true |}
                      /\ claims !! "exp" = Some (ClaimFloat64 e)) ->
  ExtractTokenMetadata lib env c = Returns (meta, None) -> is_Some meta.
Proof.
  intros Hlib. unfold ExtractTokenMetadata, verifyToken.
  destruct (jwt_Parse lib (extractToken c) (jwtKeyFunc env)) as [token [err |]] eqn:Hp.
  - discriminate.
  - destruct (Hlib _ _ Hp) as (claims & e & -> & He). simpl. rewrite He.
    intros [= <-]. eauto.
Qed.



(** ** The Authorization header *)

Lemma Split_word (w t : string) (sep : ascii) :
  Split w sep = [w] -> Split (w +:+ String sep t) sep = w :: Split t sep.
Proof.
  induction w as [| ch r IH]; simpl.
  - intros _. destruct (decide (sep = sep)); [reflexivity | congruence].
  - destruct (decide (ch = sep)); [discriminate |].
    destruct (Split r sep) as [| x xs] eqn:Hr.
    + intros [= <-]. simpl in Hr. discriminate.
    + intros [= -> ->]. rewrite IH by reflexivity. reflexivity.
Qed.

(** Whatever word stands before the single space, [extractToken] returns what
    stands after it. *)
Lemma extractToken_any_scheme (c : Ctx) (word token : string) :
  Split word " " = [word] -> Split token " " = [token] ->
  Get c "Authorization" = word +:+ String " " token ->
  extractToken c = token.
Proof.
  intros Hw Ht Hh. unfold extractToken. rewrite Hh, (Split_word _ _ _ Hw), Ht. reflexivity.
Qed.

(** So verification does not depend on the scheme word, for any library. *)
Lemma scheme_word_irrelevant (lib : Libraries) (env : Env) (c c' : Ctx) (word token : string) :
  Split word " " = [word] -> Split token " " = [token] ->
  Get c "Authorization" = word +:+ String " " token ->
  Get c' "Authorization" = "Bearer " +:+ token ->
  ExtractTokenMetadata lib env c = ExtractTokenMetadata lib env c'.
Proof.
  intros Hw Ht Hc Hc'. unfold ExtractTokenMetadata, verifyToken.
  rewrite (extractToken_any_scheme c word token Hw Ht Hc).
  rewrite (extractToken_any_scheme c' "Bearer" token eq_refl Ht Hc'). reflexivity.
Qed.





(** ** The middleware's error handler *)





(** ** Issuing a token *)








(** ** Identifiers in hexadecimal *)

Lemma hex_byte (b : byte) :
  fromHexChar (hextable (Byte.to_N b / 16)) = Some (Byte.to_N b / 16)%N
  /\ fromHexChar (hextable (Byte.to_N b mod 16)) = Some (Byte.to_N b mod 16)%N
  /\ byte_of_nibbles (Byte.to_N b / 16) (Byte.to_N b mod 16) = b.
Proof. destruct b; vm_compute; auto. Qed.

Lemma hex_DecodeString_EncodeToString (bs : list byte) :
  hex_DecodeString (hex_EncodeToString bs) = (bs, None).
Proof.
  induction bs as [| b r IH]; [reflexivity |].
  destruct (hex_byte b) as (Hhi & Hlo & Hb).
  cbn [hex_EncodeToString hex_DecodeString]. rewrite Hhi, Hlo, IH, Hb. reflexivity.
Qed.

Lemma ObjectIDFromHex_Hex (oid : primitive_ObjectID) :
  length oid = 12%nat -> ObjectIDFromHex (Hex oid) = (oid, None).
Proof.
  intros Hlen. unfold ObjectIDFromHex, Hex. rewrite hex_DecodeString_EncodeToString.
  destruct (decide (length oid = 12%nat)); [reflexivity | done].
Qed.

Lemma ObjectIDFromHex_error (id : string) (oid : primitive_ObjectID) (err : error) :
  ObjectIDFromHex id = (oid, Some err) -> oid = NilObjectID.
Proof.
  unfold ObjectIDFromHex. destruct (hex_DecodeString id) as [b [e |]].
  - intros [= <- _]. reflexivity.
  - destruct (decide (length b = 12%nat)); [discriminate |]. intros [= <- _]. reflexivity.
Qed.

(** ** The collection *)

Section CollectionFacts.
Variable oid : primitive_ObjectID.

Lemma has_id_false t : ObjectID t <> oid -> has_id oid t = false.
Proof. intros Hne. unfold has_id. by apply bool_decide_eq_false. Qed.

Lemma has_id_set t : has_id oid (set_ObjectID oid t) = true.
Proof. unfold has_id. by apply bool_decide_eq_true. Qed.

Lemma find_absent docs : absent oid docs -> List.find (has_id oid) docs = None.
Proof.
  intros Ha. unfold absent in Ha. induction Ha as [| t r Ht _ IH]; [reflexivity |].
  simpl. rewrite has_id_false by done. exact IH.
Qed.

Lemma existsb_absent docs : absent oid docs -> existsb (has_id oid) docs = false.
Proof.
  intros Ha. unfold absent in Ha. induction Ha as [| t r Ht _ IH]; [reflexivity |].
  simpl. rewrite has_id_false by done. exact IH.
Qed.

Lemma delete_first_absent docs : absent oid docs -> delete_first oid docs = docs.
Proof.
  intros Ha. unfold absent in Ha. induction Ha as [| t r Ht _ IH]; [reflexivity |].
  simpl. rewrite has_id_false by done. by rewrite IH.
Qed.

Lemma replace_first_absent new docs : absent oid docs -> replace_first oid new docs = docs.
Proof.
  intros Ha. unfold absent in Ha. induction Ha as [| t r Ht _ IH]; [reflexivity |].
  simpl. rewrite has_id_false by done. by rewrite IH.
Qed.

Lemma existsb_false_absent docs : existsb (has_id oid) docs = false -> absent oid docs.
Proof.
  induction docs as [| t r IH]; simpl; [constructor |].
  intros [Ht Hr]%orb_false_elim. constructor; [| by apply IH].
  unfold has_id in Ht. by apply bool_decide_eq_false in Ht.
Qed.

Lemma find_snoc docs t :
  absent oid docs -> List.find (has_id oid) (docs ++ [t]) = if has_id oid t then Some t else None.
Proof.
  intros Ha. unfold absent in Ha. induction Ha as [| u r Hu _ IH]; [reflexivity |].
  simpl. rewrite has_id_false by done. exact IH.
Qed.


Lemma find_replace_first new docs :
  has_id oid new = true -> existsb (has_id oid) docs = true ->
  List.find (has_id oid) (replace_first oid new docs) = Some new.
Proof.
  intros Hnew. induction docs as [| u r IH]; simpl; [discriminate |].
  destruct (has_id oid u) eqn:Hu; simpl.
  - intros _. by rewrite Hnew.
  - intros Hr. rewrite Hu. by apply IH.
Qed.

End CollectionFacts.

Lemma with_Collection_same d : with_Collection (Collection d) d = d.
Proof. destruct d; reflexivity. Qed.

(** ** The repository *)

(** C5: for an identifier that parses and that no stored document has, on a
    reachable server, [findOne] fails with the driver's no-documents error,
    and [deleteOne] and [updateOne] return a nil error with the repository
    as it was. *)
Theorem unmatched_identifier (ctx : Context) (id : string) (oid : primitive_ObjectID)
  (travel : Travel) (d : DBRepository) :
  ObjectIDFromHex id = (oid, None) ->
  absent oid (Collection d) ->
  unreachable d = None ->
  findOne ctx id d = ((None, Some ErrNoDocuments), d)
  /\ deleteOne ctx id d = (None, d)
  /\ updateOne ctx id travel d = ((set_ObjectID oid travel, None), d).
Proof.
  intros Hid Habs Hup. cbn [findOne deleteOne updateOne DBRepository_Repository].
  unfold DBRepository_findOne, DBRepository_deleteOne, DBRepository_updateOne.
  rewrite Hid. cbn [ObjectID set_ObjectID].
  unfold Collection_FindOne, Collection_DeleteOne, Collection_ReplaceOne.
  rewrite Hup, find_absent, existsb_absent, delete_first_absent, with_Collection_same by done.
  auto.
Qed.

Lemma unmatched_identifier_in_store :
  findOne context_Background "00000000000000000000002a" Double.store
  = ((None, Some (errors_New "mongo: no documents in result")), Double.store)
  /\ deleteOne context_Background "00000000000000000000002a" Double.store
     = (None, Double.store)
  /\ updateOne context_Background "00000000000000000000002a" Double.lima Double.store
     = ((set_ObjectID (Double.oid 42) Double.lima, None), Double.store).
Proof.
  apply (unmatched_identifier context_Background "00000000000000000000002a" (Double.oid 42)
           Double.lima Double.store).
  - vm_compute. reflexivity.
  - unfold absent. repeat constructor; vm_compute; discriminate.
  - reflexivity.
Defined.



(** Unlike [findOne] and [deleteOne], [updateOne] drops the error of
    [ObjectIDFromHex]: an identifier that does not parse is replaced by the
    zero identifier and the call goes on. *)
Lemma updateOne_unparsable_id (ctx : Context) (id : string) (oid : primitive_ObjectID) (err : error)
  (travel : Travel) (d : DBRepository) :
  ObjectIDFromHex id = (oid, Some err) ->
  absent NilObjectID (Collection d) -> unreachable d = None ->
  updateOne ctx id travel d = ((set_ObjectID NilObjectID travel, None), d).
Proof.
  intros Hid Habs Hup. pose proof (ObjectIDFromHex_error _ _ _ Hid) as ->.
  cbn [updateOne DBRepository_Repository]. unfold DBRepository_updateOne.
  rewrite Hid. cbn [ObjectID set_ObjectID]. unfold Collection_ReplaceOne.
  rewrite Hup, existsb_absent by done. reflexivity.
Qed.



(** * Further properties of the repository *)

Lemma string_pair_ind (P : string -> Prop) :
  P "" -> (forall c, P (String c "")) ->
  (forall p q r, P r -> P (String p (String q r))) ->
  forall s, P s.
Proof.
  intros H0 H1 H2.
  assert (forall s, P s /\ forall c, P (String c s)) as Hboth.
  { induction s as [| c s [IHs IHc]]; [split; auto |]. split; [apply IHc |].
    intros p. apply H2. exact IHs. }
  intros s. apply Hboth.
Qed.

Lemma hex_DecodeString_length (s : string) :
  forall b, hex_DecodeString s = (b, None) -> String.length s = (2 * length b)%nat.
Proof.
  induction s as [| c | p q r IH] using string_pair_ind; intros b.
  - intros [= <-]. reflexivity.
  - cbn [hex_DecodeString]. destruct (fromHexChar c); discriminate.
  - cbn [hex_DecodeString].
    destruct (fromHexChar p); [| discriminate].
    destruct (fromHexChar q); [| discriminate].
    destruct (hex_DecodeString r) as [bs [e |]]; [discriminate |].
    intros [= <-]. cbn [String.length length]. rewrite (IH bs eq_refl). lia.
Qed.

Lemma ObjectIDFromHex_ok_length (id : string) (oid : primitive_ObjectID) :
  ObjectIDFromHex id = (oid, None) -> String.length id = 24%nat /\ length oid = 12%nat.
Proof.
  unfold ObjectIDFromHex. destruct (hex_DecodeString id) as [b [e |]] eqn:Hd; [discriminate |].
  destruct (decide (length b = 12%nat)) as [Hl |]; [| discriminate].
  intros [= <-]. rewrite (hex_DecodeString_length _ _ Hd), Hl. auto.
Qed.

Lemma ObjectIDFromHex_wrong_length (id : string) :
  String.length id <> 24%nat -> exists err, ObjectIDFromHex id = (NilObjectID, Some err).
Proof.
  intros Hlen. destruct (ObjectIDFromHex id) as [oid [err |]] eqn:Hp.
  - exists err. by rewrite (ObjectIDFromHex_error _ _ _ Hp).
  - destruct (ObjectIDFromHex_ok_length _ _ Hp). done.
Qed.

Lemma elem_of_delete_first oid docs t : t ∈ delete_first oid docs -> t ∈ docs.
Proof.
  induction docs as [| u r IH]; simpl; [done |].
  destruct (has_id oid u); rewrite !elem_of_cons; [auto |].
  intros [-> | Hin]; auto.
Qed.

Lemma has_id_true oid t : has_id oid t = true -> ObjectID t = oid.
Proof. unfold has_id. apply bool_decide_eq_true. Qed.

Lemma ids_cons (t : Travel) (r : list Travel) :
  ObjectID <$> (t :: r) = ObjectID t :: (ObjectID <$> r).
Proof. reflexivity. Qed.


Lemma absent_elem oid docs t : absent oid docs -> t ∈ docs -> ObjectID t <> oid.
Proof.
  unfold absent. induction 1 as [| u r Hu _ IH]; [by intros ?%elem_of_nil |].
  intros [-> | Hin]%elem_of_cons; auto.
Qed.

Lemma ids_replace_first oid new docs :
  ObjectID new = oid -> ObjectID <$> replace_first oid new docs = ObjectID <$> docs.
Proof.
  intros Hnew. induction docs as [| t r IH]; [reflexivity |]. cbn [replace_first].
  destruct (has_id oid t) eqn:Ht; rewrite !ids_cons.
  - by rewrite Hnew, (has_id_true _ _ Ht).
  - by rewrite IH.
Qed.

Lemma unique_delete_first oid docs : unique_ids docs -> unique_ids (delete_first oid docs).
Proof.
  unfold unique_ids. induction docs as [| t r IH]; cbn [delete_first]; [done |].
  rewrite ids_cons. intros [Hnot Hr]%list.NoDup_cons. destruct (has_id oid t); [done |].
  rewrite ids_cons. apply list.NoDup_cons. split; [| by apply IH].
  intros Hin. apply Hnot. apply list_elem_of_fmap in Hin as (u & Hu & Hin).
  apply list_elem_of_fmap. exists u. split; [done |]. by apply elem_of_delete_first in Hin.
Qed.



Lemma unique_snoc docs t :
  existsb (has_id (ObjectID t)) docs = false -> unique_ids docs -> unique_ids (docs ++ [t]).
Proof.
  unfold unique_ids. intros Hex Hu. rewrite fmap_app. apply list.NoDup_app.
  split; [done |]. split; [| apply list.NoDup_singleton].
  intros x Hx [-> | []%elem_of_nil]%elem_of_cons.
  apply existsb_false_absent in Hex.
  apply list_elem_of_fmap in Hx as (u & Hu' & Hin).
  by apply (absent_elem _ _ u Hex).
Qed.

Lemma insertOne_effect (ctx : Context) (P : Travel) (d : DBRepository) :
  let oid := objectIDs d (objectIDCounter d) in
  (exists err, insertOne ctx P d
      = ((set_ObjectID oid P, Some err),
         {| Collection := Collection d; unreachable := unreachable d;
            objectIDs := objectIDs d; objectIDCounter := S (objectIDCounter d) |}))
  \/ (existsb (has_id oid) (Collection d) = false
      /\ insertOne ctx P d
         = ((set_ObjectID oid P, None),
            {| Collection := Collection d ++ [set_ObjectID oid P]; unreachable := unreachable d;
               objectIDs := objectIDs d; objectIDCounter := S (objectIDCounter d) |})).
Proof.
  cbn [insertOne DBRepository_Repository].
  unfold DBRepository_insertOne, NewObjectID, Collection_InsertOne.
  cbn [unreachable Collection ObjectID set_ObjectID].
  destruct (unreachable d) as [e |]; [left; eauto |].
  destruct (existsb _ _) eqn:Hex; [left; eauto |]. right. split; reflexivity.
Qed.

Lemma updateOne_effect (ctx : Context) (id : string) (travel : Travel) (d : DBRepository) :
  updateOne ctx id travel d
  = ((set_ObjectID (ObjectIDFromHex id).1 travel, unreachable d),
     match unreachable d with
     | Some _ => d
     | None =>
         with_Collection
           (replace_first (ObjectIDFromHex id).1 (set_ObjectID (ObjectIDFromHex id).1 travel)
              (Collection d)) d
     end).
Proof.
  cbn [updateOne DBRepository_Repository]. unfold DBRepository_updateOne.
  destruct (ObjectIDFromHex id) as [oid perr]. cbn [fst ObjectID set_ObjectID].
  unfold Collection_ReplaceOne. cbn [ObjectID set_ObjectID].
  destruct (unreachable d) as [e |] eqn:Hup; [reflexivity |].
  destruct (existsb (has_id oid) (Collection d)) eqn:Hex.
  - destruct (decide (oid = oid)); [reflexivity | done].
  - rewrite replace_first_absent by (by apply existsb_false_absent).
    by rewrite with_Collection_same.
Qed.

Lemma deleteOne_effect (ctx : Context) (id : string) (oid : primitive_ObjectID)
  (d : DBRepository) :
  ObjectIDFromHex id = (oid, None) ->
  deleteOne ctx id d
  = (unreachable d,
     match unreachable d with
     | Some _ => d
     | None => with_Collection (delete_first oid (Collection d)) d
     end).
Proof.
  intros Hid. cbn [deleteOne DBRepository_Repository]. unfold DBRepository_deleteOne.
  rewrite Hid. unfold Collection_DeleteOne. destruct (unreachable d); reflexivity.
Qed.

Lemma deleteOne_bad_id (ctx : Context) (id : string) (oid : primitive_ObjectID) (err : error)
  (d : DBRepository) :
  ObjectIDFromHex id = (oid, Some err) -> deleteOne ctx id d = (Some err, d).
Proof.
  intros Hid. cbn [deleteOne DBRepository_Repository]. unfold DBRepository_deleteOne.
  by rewrite Hid.
Qed.

Lemma findOne_bad_id (ctx : Context) (id : string) (oid : primitive_ObjectID) (err : error)
  (d : DBRepository) :
  ObjectIDFromHex id = (oid, Some err) -> findOne ctx id d = ((None, Some err), d).
Proof.
  intros Hid. cbn [findOne DBRepository_Repository]. unfold DBRepository_findOne.
  by rewrite Hid.
Qed.

Lemma findOne_effect (ctx : Context) (id : string) (oid : primitive_ObjectID)
  (d : DBRepository) :
  ObjectIDFromHex id = (oid, None) -> unreachable d = None ->
  findOne ctx id d
  = (match List.find (has_id oid) (Collection d) with
     | Some t => (Some t, None)
     | None => (None, Some ErrNoDocuments)
     end, d).
Proof.
  intros Hid Hup. cbn [findOne DBRepository_Repository]. unfold DBRepository_findOne.
  rewrite Hid. unfold Collection_FindOne. rewrite Hup.
  destruct (List.find _ _); reflexivity.
Qed.

(** X1: the three writing methods keep the identifiers of the stored
    documents pairwise distinct, whatever identifier string and record they
    are given. *)
Theorem repository_keeps_unique_ids (ctx : Context) (id : string) (travel : Travel)
  (d : DBRepository) :
  unique_ids (Collection d) ->
  unique_ids (Collection (insertOne ctx travel d).2)
  /\ unique_ids (Collection (updateOne ctx id travel d).2)
  /\ unique_ids (Collection (deleteOne ctx id d).2).
Proof.
  intros Hu. split; [| split].
  - destruct (insertOne_effect ctx travel d) as [[err ->] | [Hex ->]]; [done |].
    cbn [snd Collection]. apply unique_snoc; [exact Hex | done].
  - rewrite updateOne_effect. cbn [snd]. destruct (unreachable d); [done |].
    unfold unique_ids, with_Collection. cbn [Collection].
    by rewrite ids_replace_first.
  - destruct (ObjectIDFromHex id) as [oid [err |]] eqn:Hid.
    + by rewrite (deleteOne_bad_id _ _ _ _ _ Hid).
    + rewrite (deleteOne_effect _ _ _ _ Hid). cbn [snd]. destruct (unreachable d); [done |].
      apply unique_delete_first. exact Hu.
Qed.

Lemma repository_keeps_unique_ids_in_store :
  unique_ids (Collection (insertOne context_Background Double.lima Double.store).2)
  /\ unique_ids (Collection (updateOne context_Background "000000000000000000000002"
                               Double.lima Double.store).2)
  /\ unique_ids (Collection (deleteOne context_Background "000000000000000000000002"
                               Double.store).2).
Proof.
  apply (repository_keeps_unique_ids context_Background).
  unfold unique_ids. apply (bool_decide_unpack _). vm_compute. exact I.
Defined.



(** X3: [updateOne] never adds or removes a document and never changes an
    identifier: the identifiers of the collection, in order, are the same
    before and after, for every identifier string and record, and the
    error it returns is the connection's. *)
Theorem updateOne_keeps_identifiers (ctx : Context) (id : string) (travel : Travel)
  (d : DBRepository) :
  ObjectID <$> Collection (updateOne ctx id travel d).2 = ObjectID <$> Collection d
  /\ length (Collection (updateOne ctx id travel d).2) = length (Collection d)
  /\ (updateOne ctx id travel d).1.2 = unreachable d.
Proof.
  rewrite updateOne_effect. cbn [fst snd].
  assert (ObjectID <$> Collection
            match unreachable d with
            | Some _ => d
            | None =>
                with_Collection
                  (replace_first (ObjectIDFromHex id).1
                     (set_ObjectID (ObjectIDFromHex id).1 travel) (Collection d)) d
            end = ObjectID <$> Collection d) as Hids.
  { destruct (unreachable d); [reflexivity |]. cbn [with_Collection Collection].
    by apply ids_replace_first. }
  split; [exact Hids |]. split; [| reflexivity].
  rewrite <- (length_fmap ObjectID), Hids. apply length_fmap.
Qed.

(** X4: [updateOne] drops the error of [ObjectIDFromHex]: with an identifier
    that does not parse it does exactly what it does with the zero
    identifier, so on a reachable server a stored document whose identifier
    is zero is replaced by the record. *)
Theorem updateOne_unparsable_is_zero_id (ctx : Context) (id : string)
  (oid : primitive_ObjectID) (err : error) (travel : Travel) (d : DBRepository) :
  ObjectIDFromHex id = (oid, Some err) ->
  updateOne ctx id travel d = updateOne ctx "000000000000000000000000" travel d
  /\ (unreachable d = None ->
      existsb (has_id NilObjectID) (Collection d) = true ->
      (updateOne ctx id travel d).1.2 = None
      /\ List.find (has_id NilObjectID) (Collection (updateOne ctx id travel d).2)
         = Some (set_ObjectID NilObjectID travel)).
Proof.
  intros Hid. pose proof (ObjectIDFromHex_error _ _ _ Hid) as ->.
  assert (ObjectIDFromHex "000000000000000000000000" = (NilObjectID, None)) as Hz
    by (vm_compute; reflexivity).
  rewrite !updateOne_effect, Hid, Hz. cbn [fst snd]. split; [reflexivity |].
  intros Hup Hex. rewrite Hup. split; [reflexivity |].
  cbn [with_Collection Collection]. apply find_replace_first; [apply has_id_set | done].
Qed.

Lemma updateOne_unparsable_is_zero_id_in_store :
  updateOne context_Background "not-an-id" Double.lima Double.store
  = updateOne context_Background "000000000000000000000000" Double.lima Double.store
  /\ (unreachable Double.store = None ->
      existsb (has_id NilObjectID) (Collection Double.store) = true ->
      (updateOne context_Background "not-an-id" Double.lima Double.store).1.2 = None
      /\ List.find (has_id NilObjectID)
           (Collection (updateOne context_Background "not-an-id" Double.lima Double.store).2)
         = Some (set_ObjectID NilObjectID Double.lima)).
Proof.
  apply (updateOne_unparsable_is_zero_id context_Background "not-an-id" NilObjectID
           (InvalidByteError "n")).
  vm_compute. reflexivity.
Defined.

(** X5: [insertOne] writes the generated identifier into the caller's record
    before it inserts, so the record carries it even when the insertion
    fails; a failed insertion leaves the documents as they were, a
    successful one appends the record, and every call uses up one
    identifier. *)
Theorem insertOne_overwrites_before_inserting (ctx : Context) (P : Travel) (d : DBRepository) :
  (insertOne ctx P d).1.1 = set_ObjectID (objectIDs d (objectIDCounter d)) P
  /\ objectIDCounter (insertOne ctx P d).2 = S (objectIDCounter d)
  /\ ((insertOne ctx P d).1.2 <> None ->
      Collection (insertOne ctx P d).2 = Collection d)
  /\ ((insertOne ctx P d).1.2 = None ->
      Collection (insertOne ctx P d).2 = (Collection d ++ [(insertOne ctx P d).1.1])%list)
  /\ (forall e, unreachable d = Some e -> (insertOne ctx P d).1.2 = Some e)
  /\ (unreachable d = None ->
      existsb (has_id (objectIDs d (objectIDCounter d))) (Collection d) = true ->
      (insertOne ctx P d).1.2 = Some ErrDuplicateKey).
Proof.
  split; [| split; [| split; [| split; [| split]]]].
  1-4: destruct (insertOne_effect ctx P d) as [[err ->] | [Hex ->]]; cbn [fst snd
         Collection objectIDCounter]; try reflexivity; try done.
  - intros e He. cbn [insertOne DBRepository_Repository].
    unfold DBRepository_insertOne, NewObjectID, Collection_InsertOne. cbn [unreachable].
    by rewrite He.
  - intros Hup Hex. cbn [insertOne DBRepository_Repository].
    unfold DBRepository_insertOne, NewObjectID, Collection_InsertOne.
    cbn [unreachable Collection ObjectID set_ObjectID]. by rewrite Hup, Hex.
Qed.

(** X6: [findOne] and [deleteOne] refuse an identifier that is not 24
    characters long with the error of [ObjectIDFromHex], and leave the
    repository as it was. *)
Theorem findOne_deleteOne_reject_bad_id (ctx : Context) (id : string) (d : DBRepository) :
  String.length id <> 24%nat ->
  exists err : error,
    findOne ctx id d = ((None, Some err), d) /\ deleteOne ctx id d = (Some err, d).
Proof.
  intros Hlen. destruct (ObjectIDFromHex_wrong_length id Hlen) as [err Hid].
  exists err. split.
  - exact (findOne_bad_id _ _ _ _ _ Hid).
  - exact (deleteOne_bad_id _ _ _ _ _ Hid).
Qed.

Lemma findOne_deleteOne_reject_bad_id_short :
  exists err : error,
    findOne context_Background "abc" Double.store = ((None, Some err), Double.store)
    /\ deleteOne context_Background "abc" Double.store = (Some err, Double.store).
Proof.
  apply (findOne_deleteOne_reject_bad_id context_Background "abc" Double.store).
  vm_compute. discriminate.
Defined.

(** * Further properties of the handlers *)

Lemma Hex_nonempty (oid : primitive_ObjectID) : length oid = 12%nat -> Hex oid <> "".
Proof. destruct oid; [discriminate | intros _; discriminate]. Qed.

(** X7: reading a travel by the hexadecimal form of a stored identifier, on
    a reachable server, answers 200 with the first stored document that has
    the identifier, and leaves the repository as it was. *)
Theorem getTravel_found (c : Ctx) (d : DBRepository) (oid : primitive_ObjectID) (t : Travel) :
  unreachable d = None ->
  length oid = 12%nat ->
  List.find (has_id oid) (Collection d) = Some t ->
  Params c "id" = Hex oid ->
  getTravel d c = Returns (JSON (JSONData (TravelPtr (Some t))) (Status 200 c), d)
  /\ ObjectID t = oid.
Proof.
  intros Hup Hlen Hfind Hid. split.
  - unfold getTravel. rewrite Hid.
    destruct (decide (Hex oid = "")) as [He |]; [by apply Hex_nonempty in He |].
    rewrite (findOne_effect _ _ oid) by (by apply ObjectIDFromHex_Hex || done).
    rewrite Hfind. reflexivity.
  - apply find_some in Hfind as [_ Ht]. by apply has_id_true.
Qed.

Lemma getTravel_found_in_store :
  getTravel Double.store (request {[ "id" := "000000000000000000000002" ]} ∅ (zero_Travel, None))
  = Returns (JSON (JSONData (TravelPtr (Some Double.oslo)))
               (Status 200 (request {[ "id" := "000000000000000000000002" ]} ∅
                              (zero_Travel, None))), Double.store)
  /\ ObjectID Double.oslo = Double.oid 2.
Proof.
  apply (getTravel_found (request {[ "id" := "000000000000000000000002" ]} ∅ (zero_Travel, None))
           Double.store (Double.oid 2) Double.oslo); reflexivity.
Defined.

(** X8: reading a travel answers 500 with the error's message, and not 404
    or 422, both when the identifier is not 24 characters long (the error
    of [ObjectIDFromHex]) and when it parses but no stored document has it
    (the driver's no-documents error); the repository is as it was. *)
Theorem getTravel_unknown_or_malformed (c : Ctx) (d : DBRepository) :
  Params c "id" <> "" ->
  (String.length (Params c "id") <> 24%nat ->
   exists err : error, getTravel d c = Returns (error_response (Error err) c, d))
  /\ (forall oid, ObjectIDFromHex (Params c "id") = (oid, None) ->
      unreachable d = None -> absent oid (Collection d) ->
      getTravel d c = Returns (error_response "mongo: no documents in result" c, d)).
Proof.
  intros Hne. split.
  - intros Hlen. destruct (ObjectIDFromHex_wrong_length _ Hlen) as [err Hid].
    exists err. unfold getTravel. destruct (decide (Params c "id" = "")); [done |].
    rewrite (findOne_bad_id _ _ _ _ _ Hid). reflexivity.
  - intros oid Hid Hup Habs. unfold getTravel.
    destruct (decide (Params c "id" = "")); [done |].
    rewrite (findOne_effect _ _ oid) by done. rewrite find_absent by done. reflexivity.
Qed.

Lemma getTravel_unknown_or_malformed_in_store :
  (String.length (Params (request {[ "id" := "42" ]} ∅ (zero_Travel, None)) "id") <> 24%nat ->
   exists err : error,
     getTravel Double.store (request {[ "id" := "42" ]} ∅ (zero_Travel, None))
     = Returns (error_response (Error err) (request {[ "id" := "42" ]} ∅ (zero_Travel, None)),
                Double.store))
  /\ (forall oid, ObjectIDFromHex (Params (request {[ "id" := "42" ]} ∅ (zero_Travel, None)) "id")
                  = (oid, None) ->
      unreachable Double.store = None -> absent oid (Collection Double.store) ->
      getTravel Double.store (request {[ "id" := "42" ]} ∅ (zero_Travel, None))
      = Returns (error_response "mongo: no documents in result"
                   (request {[ "id" := "42" ]} ∅ (zero_Travel, None)), Double.store)).
Proof.
  apply (getTravel_unknown_or_malformed (request {[ "id" := "42" ]} ∅ (zero_Travel, None))
           Double.store).
  vm_compute. discriminate.
Defined.

Section ProtectedHandlers.
Context {R : Type} `{Repository R}.
Variable lib : Libraries.
Variable env : Env.

Lemma accepted_createTravel now (a : R) c claims :
  ExtractTokenMetadata lib env c = Returns (Some claims, None) ->
  Unix now <= Expires claims ->
  createTravel lib env now a c = MainGo.createTravel a c.
Proof.
  intros Hm Hexp. unfold createTravel, MainGo.createTravel. rewrite Hm.
  destruct (decide (Unix now > Expires claims)); [lia | reflexivity].
Qed.

Lemma accepted_updateTravel now (a : R) c claims :
  ExtractTokenMetadata lib env c = Returns (Some claims, None) ->
  Unix now <= Expires claims ->
  updateTravel lib env now a c = MainGo.updateTravel a c.
Proof.
  intros Hm Hexp. unfold updateTravel, MainGo.updateTravel. rewrite Hm.
  destruct (decide (Unix now > Expires claims)); [lia | reflexivity].
Qed.

Lemma accepted_deleteTravel now (a : R) c claims :
  ExtractTokenMetadata lib env c = Returns (Some claims, None) ->
  Unix now <= Expires claims ->
  deleteTravel lib env now a c = MainGo.deleteTravel a c.
Proof.
  intros Hm Hexp. unfold deleteTravel, MainGo.deleteTravel. rewrite Hm.
  destruct (decide (Unix now > Expires claims)); [lia | reflexivity].
Qed.

Lemma not_accepted_keeps_repository now (a : R) c :
  (forall claims, ExtractTokenMetadata lib env c = Returns (Some claims, None) ->
                  Expires claims < Unix now) ->
  forall handler,
    handler = createTravel lib env now \/ handler = updateTravel lib env now
    \/ handler = deleteTravel lib env now ->
    forall a', repository_after (handler a c) = Some a' -> a' = a.
Proof.
  intros Hrej handler Hh a'.
  assert (forall (k : TokenMetadata -> outcome (Ctx * R)),
            repository_after
              match ExtractTokenMetadata lib env c with
              | Panics msg => Panics msg
              | Returns (_, Some err) =>
                  Returns (response None StatusInternalServerError (Some err) c, a)
              | Returns (None, None) => Panics nil_dereference
              | Returns (Some claims, None) =>
                  if decide (Unix now > Expires claims)
                  then Returns (response None StatusUnauthorized
                                  (Some (errors_New expired_message)) c, a)
                  else k claims
              end = Some a' -> a' = a) as Hgate.
  { intros k. destruct (ExtractTokenMetadata lib env c) as [[[claims |] [err |]] | msg] eqn:Hm;
      cbn; try congruence.
    specialize (Hrej claims eq_refl).
    destruct (decide (Unix now > Expires claims)); [cbn; congruence | lia]. }
  destruct Hh as [-> | [-> | ->]]; apply Hgate.
Qed.

End ProtectedHandlers.

(** X9: once the token has been accepted and has not expired, each protected
    handler does exactly what the handler of the same name in main.go, the
    service without tokens, does on the same request and repository. *)
Theorem accepted_token_runs_plain_handler {R : Type} `{Repository R} (lib : Libraries)
  (env : Env) (now : Time) (a : R) (c : Ctx) (claims : TokenMetadata) :
  ExtractTokenMetadata lib env c = Returns (Some claims, None) ->
  Unix now <= Expires claims ->
  createTravel lib env now a c = MainGo.createTravel a c
  /\ updateTravel lib env now a c = MainGo.updateTravel a c
  /\ deleteTravel lib env now a c = MainGo.deleteTravel a c.
Proof.
  intros Hm Hexp. split; [| split].
  - by apply accepted_createTravel with claims.
  - by apply accepted_updateTravel with claims.
  - by apply accepted_deleteTravel with claims.
Qed.

Lemma accepted_token_runs_plain_handler_at_request :
  createTravel (Double.libraries (Some 1000)) (Double.env 5) (1000 * time_Second) Double.store
    (request ∅ (Double.bearer "HS256.1300.secret") (Double.lima, None))
  = MainGo.createTravel Double.store
      (request ∅ (Double.bearer "HS256.1300.secret") (Double.lima, None)).
Proof.
  refine (proj1 (accepted_token_runs_plain_handler (Double.libraries (Some 1000)) (Double.env 5)
                   (1000 * time_Second) Double.store
                   (request ∅ (Double.bearer "HS256.1300.secret") (Double.lima, None))
                   {| Expires := 1300 |} _ _)).
  - vm_compute. reflexivity.
  - vm_compute. discriminate.
Defined.

(** X10: a protected handler calls the repository only behind the token
    check: when [ExtractTokenMetadata] does not return metadata whose
    expiration is at or after the handler's reading of the clock, a handler
    that returns hands back the repository it was given. *)
Theorem rejected_token_leaves_repository {R : Type} `{Repository R} (lib : Libraries)
  (env : Env) (now : Time) (a : R) (c : Ctx) :
  (forall claims, ExtractTokenMetadata lib env c = Returns (Some claims, None) ->
                  Expires claims < Unix now) ->
  (forall a', repository_after (createTravel lib env now a c) = Some a' -> a' = a)
  /\ (forall a', repository_after (updateTravel lib env now a c) = Some a' -> a' = a)
  /\ (forall a', repository_after (deleteTravel lib env now a c) = Some a' -> a' = a).
Proof.
  intros Hrej. pose proof (not_accepted_keeps_repository lib env now a c Hrej) as Hk.
  split; [| split]; intros a'; apply Hk; auto.
Qed.

Lemma rejected_token_leaves_repository_at_request :
  (forall a', repository_after
                (createTravel (Double.libraries (Some 1000)) (Double.env 5) (1000 * time_Second)
                   Double.store (request ∅ (Double.bearer "HS256.1300.other") (Double.lima, None)))
              = Some a' -> a' = Double.store)
  /\ (forall a', repository_after
                (updateTravel (Double.libraries (Some 1000)) (Double.env 5) (1000 * time_Second)
                   Double.store (request ∅ (Double.bearer "HS256.1300.other") (Double.lima, None)))
              = Some a' -> a' = Double.store)
  /\ (forall a', repository_after
                (deleteTravel (Double.libraries (Some 1000)) (Double.env 5) (1000 * time_Second)
                   Double.store (request ∅ (Double.bearer "HS256.1300.other") (Double.lima, None)))
              = Some a' -> a' = Double.store).
Proof.
  apply (rejected_token_leaves_repository (Double.libraries (Some 1000)) (Double.env 5)
           (1000 * time_Second) Double.store
           (request ∅ (Double.bearer "HS256.1300.other") (Double.lima, None))).
  intros claims Hm. vm_compute in Hm. discriminate.
Defined.

(** X11: creating a travel with an accepted token on a reachable server,
    when the generated identifier is not yet stored, answers 200 with the
    record of the request body carrying the generated identifier, and a
    later read of that identifier's hexadecimal form answers 200 with the
    same record. *)
Theorem createTravel_then_getTravel (lib : Libraries) (env : Env) (now : Time)
  (d : DBRepository) (c c' : Ctx) (claims : TokenMetadata) (P : Travel) :
  ExtractTokenMetadata lib env c = Returns (Some claims, None) ->
  Unix now <= Expires claims ->
  BodyParser c = (P, None) ->
  unreachable d = None ->
  length (objectIDs d (objectIDCounter d)) = 12%nat ->
  absent (objectIDs d (objectIDCounter d)) (Collection d) ->
  Params c' "id" = Hex (objectIDs d (objectIDCounter d)) ->
  exists d' : DBRepository,
    createTravel lib env now d c
    = Returns (JSON (JSONData (TravelValue (set_ObjectID (objectIDs d (objectIDCounter d)) P)))
                 (Status 200 c), d')
    /\ getTravel d' c'
       = Returns (JSON (JSONData (TravelPtr (Some (set_ObjectID (objectIDs d (objectIDCounter d)) P))))
                    (Status 200 c'), d').
Proof.
  intros Hm Hexp Hbody Hup Hlen Habs Hid.
  rewrite (accepted_createTravel lib env now d c claims Hm Hexp).
  unfold MainGo.createTravel. rewrite Hbody.
  destruct (insertOne_effect (context_WithTimeout context_Background (20 * time_Second)) P d)
    as [[err Hins] | [_ Hins]].
  { exfalso. revert Hins. cbn [insertOne DBRepository_Repository].
    unfold DBRepository_insertOne, NewObjectID, Collection_InsertOne.
    cbn [unreachable Collection ObjectID set_ObjectID].
    rewrite Hup, existsb_absent by done. discriminate. }
  rewrite Hins. eexists. split; [reflexivity |].
  unfold getTravel. rewrite Hid.
  destruct (decide (Hex _ = "")) as [He |]; [by apply Hex_nonempty in He |].
  rewrite (findOne_effect _ _ (objectIDs d (objectIDCounter d)))
    by (by apply ObjectIDFromHex_Hex || done).
  cbn [Collection]. rewrite find_snoc, has_id_set by done. reflexivity.
Qed.

Lemma createTravel_then_getTravel_in_store :
  exists d' : DBRepository,
    createTravel (Double.libraries (Some 1000)) (Double.env 5) (1000 * time_Second) Double.store
      (request ∅ (Double.bearer "HS256.1300.secret") (Double.lima, None))
    = Returns (JSON (JSONData (TravelValue (set_ObjectID (Double.oid 16) Double.lima)))
                 (Status 200 (request ∅ (Double.bearer "HS256.1300.secret") (Double.lima, None))),
               d')
    /\ getTravel d' (request {[ "id" := "000000000000000000000010" ]} ∅ (zero_Travel, None))
       = Returns (JSON (JSONData (TravelPtr (Some (set_ObjectID (Double.oid 16) Double.lima))))
                    (Status 200 (request {[ "id" := "000000000000000000000010" ]} ∅
                                   (zero_Travel, None))), d').
Proof.
  apply (createTravel_then_getTravel (Double.libraries (Some 1000)) (Double.env 5)
           (1000 * time_Second) Double.store
           (request ∅ (Double.bearer "HS256.1300.secret") (Double.lima, None))
           (request {[ "id" := "000000000000000000000010" ]} ∅ (zero_Travel, None))
           {| Expires := 1300 |} Double.lima).
  - vm_compute. reflexivity.
  - vm_compute. discriminate.
  - reflexivity.
  - reflexivity.
  - reflexivity.
  - unfold absent. repeat constructor; vm_compute; discriminate.
  - vm_compute. reflexivity.
Defined.

(** X12: updating or deleting with an accepted token and a well-formed
    identifier that no stored document has answers 204 with no body, like a
    successful write, and leaves the repository as it was. *)
Theorem write_to_unknown_id_answers_204 (lib : Libraries) (env : Env) (now : Time)
  (d : DBRepository) (c : Ctx) (claims : TokenMetadata) (oid : primitive_ObjectID)
  (travel : Travel) :
  ExtractTokenMetadata lib env c = Returns (Some claims, None) ->
  Unix now <= Expires claims ->
  ObjectIDFromHex (Params c "id") = (oid, None) ->
  absent oid (Collection d) ->
  unreachable d = None ->
  deleteTravel lib env now d c = Returns (Status 204 c, d)
  /\ (BodyParser c = (travel, None) -> updateTravel lib env now d c = Returns (Status 204 c, d)).
Proof.
  intros Hm Hexp Hid Habs Hup.
  assert (Params c "id" <> "") as Hne.
  { intros He. rewrite He in Hid. vm_compute in Hid. discriminate. }
  split.
  - rewrite (accepted_deleteTravel lib env now d c claims Hm Hexp).
    unfold MainGo.deleteTravel. destruct (decide (Params c "id" = "")); [done |].
    rewrite (deleteOne_effect _ _ _ _ Hid), Hup, delete_first_absent, with_Collection_same
      by done. reflexivity.
  - intros Hbody. rewrite (accepted_updateTravel lib env now d c claims Hm Hexp).
    unfold MainGo.updateTravel. destruct (decide (Params c "id" = "")); [done |].
    rewrite Hbody, updateOne_effect, Hid, Hup. cbn [fst].
    rewrite replace_first_absent, with_Collection_same by done. reflexivity.
Qed.

Lemma write_to_unknown_id_answers_204_in_store :
  deleteTravel (Double.libraries (Some 1000)) (Double.env 5) (1000 * time_Second) Double.store
    (request {[ "id" := "00000000000000000000002a" ]} (Double.bearer "HS256.1300.secret")
       (Double.lima, None))
  = Returns (Status 204 (request {[ "id" := "00000000000000000000002a" ]}
                           (Double.bearer "HS256.1300.secret") (Double.lima, None)),
             Double.store).
Proof.
  refine (proj1 (write_to_unknown_id_answers_204 (Double.libraries (Some 1000)) (Double.env 5)
                   (1000 * time_Second) Double.store
                   (request {[ "id" := "00000000000000000000002a" ]}
                      (Double.bearer "HS256.1300.secret") (Double.lima, None))
                   {| Expires := 1300 |} (Double.oid 42) Double.lima _ _ _ _ _)).
  - vm_compute. reflexivity.
  - vm_compute. discriminate.
  - vm_compute. reflexivity.
  - unfold absent. repeat constructor; vm_compute; discriminate.
  - reflexivity.
Defined.

(** X13: when the request body does not decode, creating and updating pass
    422 to [response] together with the decoder's error, and the answer is
    500 with that error's message; the repository is not called. *)
Theorem unparsable_body_answer {R : Type} `{Repository R} (lib : Libraries) (env : Env)
  (now : Time) (a : R) (c : Ctx) (claims : TokenMetadata) (travel : Travel) (err : error) :
  ExtractTokenMetadata lib env c = Returns (Some claims, None) ->
  Unix now <= Expires claims ->
  BodyParser c = (travel, Some err) ->
  createTravel lib env now a c = Returns (error_response (Error err) c, a)
  /\ (Params c "id" <> "" ->
      updateTravel lib env now a c = Returns (error_response (Error err) c, a)).
Proof.
  intros Hm Hexp Hbody. split.
  - rewrite (accepted_createTravel lib env now a c claims Hm Hexp).
    unfold MainGo.createTravel. rewrite Hbody. reflexivity.
  - intros Hne. rewrite (accepted_updateTravel lib env now a c claims Hm Hexp).
    unfold MainGo.updateTravel. destruct (decide (Params c "id" = "")); [done |].
    rewrite Hbody. reflexivity.
Qed.

Lemma unparsable_body_answer_at_request :
  createTravel (Double.libraries (Some 1000)) (Double.env 5) (1000 * time_Second) Double.store
    (request ∅ (Double.bearer "HS256.1300.secret")
       (zero_Travel, Some (errors_New "unexpected end of JSON input")))
  = Returns (error_response "unexpected end of JSON input"
               (request ∅ (Double.bearer "HS256.1300.secret")
                  (zero_Travel, Some (errors_New "unexpected end of JSON input"))),
             Double.store).
Proof.
  refine (proj1 (unparsable_body_answer (Double.libraries (Some 1000)) (Double.env 5)
                   (1000 * time_Second) Double.store
                   (request ∅ (Double.bearer "HS256.1300.secret")
                      (zero_Travel, Some (errors_New "unexpected end of JSON input")))
                   {| Expires := 1300 |} zero_Travel
                   (errors_New "unexpected end of JSON input") _ _ _)).
  - vm_compute. reflexivity.
  - vm_compute. discriminate.
  - reflexivity.
Defined.

(** * Further properties of the token functions *)

Lemma Split_not_nil (s : string) (sep : ascii) : Split s sep <> [].
Proof.
  destruct s as [| ch r]; [discriminate |]. simpl.
  destruct (decide (ch = sep)); [discriminate |]. destruct (Split r sep); discriminate.
Qed.

Lemma Join_cons (x y : string) (r : list string) (sep : ascii) :
  Join (x :: y :: r) sep = x +:+ String sep (Join (y :: r) sep).
Proof. reflexivity. Qed.

Lemma Join_cons_char (ch : ascii) (x : string) (xs : list string) (sep : ascii) :
  Join (String ch x :: xs) sep = String ch (Join (x :: xs) sep).
Proof. destruct xs; reflexivity. Qed.

Lemma Join_Split (s : string) (sep : ascii) : Join (Split s sep) sep = s.
Proof.
  induction s as [| ch r IH]; [reflexivity |]. cbn [Split].
  destruct (decide (ch = sep)) as [-> |].
  - destruct (Split r sep) as [| x xs] eqn:Hr; [by apply Split_not_nil in Hr |].
    rewrite Join_cons, IH. reflexivity.
  - destruct (Split r sep) as [| x xs] eqn:Hr; [by apply Split_not_nil in Hr |].
    rewrite Join_cons_char, IH. reflexivity.
Qed.

Lemma Split_parts (s : string) (sep : ascii) :
  forall x, x ∈ Split s sep -> Split x sep = [x].
Proof.
  induction s as [| ch r IH]; intros x.
  - intros [-> | []%elem_of_nil]%elem_of_cons. reflexivity.
  - cbn [Split]. destruct (decide (ch = sep)).
    + intros [-> | Hin]%elem_of_cons; [reflexivity | by apply IH].
    + destruct (Split r sep) as [| y ys] eqn:Hr; [by apply Split_not_nil in Hr |].
      intros [-> | Hin]%elem_of_cons.
      * cbn [Split]. destruct (decide (ch = sep)); [done |].
        rewrite (IH y) by apply list_elem_of_here. reflexivity.
      * apply IH. by apply list_elem_of_further.
Qed.

(** X14: the token [extractToken] returns never contains a space; it is
    empty unless the header splits at single spaces into exactly two parts,
    and a non-empty token is what follows the only space of the header. *)
Theorem extractToken_shape (c : Ctx) :
  Split (extractToken c) " " = [extractToken c]
  /\ (length (Split (Get c "Authorization") " ") <> 2%nat -> extractToken c = "")
  /\ (extractToken c <> "" ->
      exists word, Split word " " = [word]
                   /\ Get c "Authorization" = word +:+ String " " (extractToken c)).
Proof.
  pose proof (Join_Split (Get c "Authorization") " ") as Hjoin.
  pose proof (Split_parts (Get c "Authorization") " ") as Hparts.
  unfold extractToken.
  destruct (Split (Get c "Authorization") " ") as [| w [| t [| z l]]].
  - repeat split; try reflexivity. done.
  - repeat split; try reflexivity. done.
  - split; [| split].
    + apply Hparts. apply list_elem_of_further, list_elem_of_here.
    + simpl. lia.
    + intros _. exists w. split; [apply Hparts, list_elem_of_here |].
      symmetry. exact Hjoin.
  - repeat split; try reflexivity. done.
Qed.

(** X15: [ExtractTokenMetadata] returns metadata only with a nil error, only
    for a token that [jwt.Parse] returned without error and marked valid,
    with map claims, and the expiration it returns is the ["exp"] claim of
    that token. *)
Theorem metadata_only_from_valid_token (lib : Libraries) (env : Env) (c : Ctx)
  (meta : TokenMetadata) (err : option error) :
  ExtractTokenMetadata lib env c = Returns (Some meta, err) ->
  err = None
  /\ exists claims,
       jwt_Parse lib (extractToken c) (jwtKeyFunc env)
       = (Some {| Claims := MapClaims claims; Valid := true |}, None)
       /\ claims !! "exp" = Some (ClaimFloat64 (Expires meta)).
Proof.
  unfold ExtractTokenMetadata, verifyToken.
  destruct (jwt_Parse lib (extractToken c) (jwtKeyFunc env)) as [token [perr |]];
    [discriminate |].
  destruct token as [[[claims |] [|]] |]; try discriminate.
  cbn [Claims Valid]. destruct (claims !! "exp") as [[n | e | s] |] eqn:Hexp; try discriminate.
  intros [= <- <-]. split; [reflexivity |]. exists claims. auto.
Qed.

Lemma metadata_only_from_valid_token_at_request :
  @None error = None
  /\ exists claims,
       jwt_Parse (Double.libraries (Some 1000))
         (extractToken (request ∅ (Double.bearer "HS256.1300.secret") (zero_Travel, None)))
         (jwtKeyFunc (Double.env 5))
       = (Some {| Claims := MapClaims claims; Valid := true |}, None)
       /\ claims !! "exp" = Some (ClaimFloat64 (Expires {| Expires := 1300 |})).
Proof.
  apply (metadata_only_from_valid_token (Double.libraries (Some 1000)) (Double.env 5)
           (request ∅ (Double.bearer "HS256.1300.secret") (zero_Travel, None))).
  vm_compute. reflexivity.
Defined.

(** X16: a token that [jwt.Parse] accepts as valid, with map claims, but
    whose ["exp"] claim is missing or is not a number makes
    [ExtractTokenMetadata] panic in the type assertion, and with it each
    protected handler. *)
Theorem valid_token_without_numeric_exp_panics {R : Type} `{Repository R} (lib : Libraries)
  (env : Env) (now : Time) (a : R) (c : Ctx) (claims : gmap string ClaimValue) :
  jwt_Parse lib (extractToken c) (jwtKeyFunc env)
  = (Some {| Claims := MapClaims claims; Valid := true |}, None) ->
  (forall e, claims !! "exp" <> Some (ClaimFloat64 e)) ->
  exists msg,
    ExtractTokenMetadata lib env c = Panics msg
    /\ createTravel lib env now a c = Panics msg
    /\ updateTravel lib env now a c = Panics msg
    /\ deleteTravel lib env now a c = Panics msg.
Proof.
  intros Hp Hexp. exists "interface conversion: interface {} is not float64".
  assert (ExtractTokenMetadata lib env c
          = Panics "interface conversion: interface {} is not float64") as Hm.
  { unfold ExtractTokenMetadata. rewrite (verifyToken_parsed _ _ _ _ Hp). cbn [Claims Valid].
    destruct (claims !! "exp") as [[n | e | s] |] eqn:He; try reflexivity.
    by destruct (Hexp e). }
  unfold createTravel, updateTravel, deleteTravel. rewrite Hm. auto.
Qed.

Lemma valid_token_without_numeric_exp_panics_at_request :
  exists msg,
    ExtractTokenMetadata (Double.libraries (Some 1000)) (Double.env 5)
      (request ∅ (Double.bearer "HS256..secret") (Double.lima, None)) = Panics msg
    /\ createTravel (Double.libraries (Some 1000)) (Double.env 5) (1000 * time_Second)
         Double.store (request ∅ (Double.bearer "HS256..secret") (Double.lima, None))
       = Panics msg
    /\ updateTravel (Double.libraries (Some 1000)) (Double.env 5) (1000 * time_Second)
         Double.store (request ∅ (Double.bearer "HS256..secret") (Double.lima, None))
       = Panics msg
    /\ deleteTravel (Double.libraries (Some 1000)) (Double.env 5) (1000 * time_Second)
         Double.store (request ∅ (Double.bearer "HS256..secret") (Double.lima, None))
       = Panics msg.
Proof.
  apply (valid_token_without_numeric_exp_panics (Double.libraries (Some 1000)) (Double.env 5)
           (1000 * time_Second) Double.store
           (request ∅ (Double.bearer "HS256..secret") (Double.lima, None)) ∅).
  - vm_compute. reflexivity.
  - intros e. rewrite lookup_empty. discriminate.
Defined.




